(** * secure-auth-system: the Flask login application [src/app.py]

    A shallow embedding of the request handlers of [src/app.py]
    ([register], [login], [dashboard], [logout], [home]) together with the
    parts of the libraries they call: the [User] table behind SQLAlchemy,
    Flask's [session] and [flash], and [werkzeug.security]'s
    [generate_password_hash] / [check_password_hash].

    Python [str] values are modelled as byte strings (their UTF-8
    encoding); the separators ["$"] and [":"] are single ASCII bytes. *)

From Stdlib Require Import Ascii String DecimalString DecimalFacts DecimalN.
From stdpp Require Import base option list strings gmap.

Local Open Scope string_scope.
Local Open Scope list_scope.

(** ** Outcomes of Python code: a value or a raised exception *)

Inductive exn :=
  | BadRequestKeyError (key : string)   (* werkzeug: missing form field, HTTP 400 *)
  | ValueError (msg : string)
  | IntegrityError (msg : string).      (* sqlalchemy.exc: constraint violated *)

Inductive outcome (A : Type) :=
  | Ret (a : A)
  | Raise (e : exn).
Arguments Ret {A} a.
Arguments Raise {A} e.

#[global] Instance outcome_ret : MRet outcome := @Ret.
#[global] Instance outcome_bind : MBind outcome := λ A B f m,
  match m with
  | Ret a => f a
  | Raise e => Raise e
  end.

(** ** Python string operations used by werkzeug *)

Module Str.

(** [c in s] for a one-character [c]. *)
Fixpoint contains (c : ascii) (s : string) : bool :=
  match s with
  | EmptyString => false
  | String a r => if Ascii.eqb a c then true else contains c r
  end.

(** [s.partition(sep)] when [sep] occurs: the text before the first [sep]
    and the text after it; [None] when [sep] does not occur. *)
Fixpoint cut (sep : ascii) (s : string) : option (string * string) :=
  match s with
  | EmptyString => None
  | String a r =>
      if Ascii.eqb a sep then Some (EmptyString, r)
      else match cut sep r with
           | Some (h, t) => Some (String a h, t)
           | None => None
           end
  end.

(** [s.split(sep, 2)] unpacked into exactly three names: Python raises
    [ValueError] (here [None]) when [sep] occurs fewer than two times. *)
Definition split3 (sep : ascii) (s : string) : option (string * string * string) :=
  match cut sep s with
  | Some (a, r) =>
      match cut sep r with
      | Some (b, c) => Some (a, b, c)
      | None => None
      end
  | None => None
  end.

(** [s.split(sep)]: all fields, never the empty list. *)
Fixpoint split (sep : ascii) (s : string) : list string :=
  match s with
  | EmptyString => [EmptyString]
  | String a r =>
      if Ascii.eqb a sep then EmptyString :: split sep r
      else match split sep r with
           | h :: t => String a h :: t
           | [] => [String a EmptyString]
           end
  end.

(** [str(n)] for a non-negative integer. *)
Definition of_N (n : N) : string := NilZero.string_of_uint (N.to_uint n).

(** [int(s)] on plain decimal numerals.  Python's [int] also accepts a
    sign, surrounding blanks and underscores between digits; no hash
    written by [generate_password_hash] contains such a numeral, and they
    are read as [ValueError] here. *)
Definition to_N (s : string) : outcome N :=
  match NilZero.uint_of_string s with
  | Some d => Ret (N.of_uint d)
  | None => Raise (ValueError "invalid literal for int() with base 10")
  end.

End Str.

(** ** hashlib: the key-derivation primitives, kept abstract

    [pbkdf2_hmac hash_name password salt iterations] and
    [scrypt password salt n r p] return the hexadecimal text of the derived
    key ([.hex()] applied).  They are deterministic functions of their
    arguments; nothing else is assumed about them.  hashlib raises for a
    digest name or for parameters it does not support; the application
    only ever asks for "sha256" with werkzeug's iteration count, and the
    primitives are total here.
    [DEFAULT_PBKDF2_ITERATIONS] is werkzeug's constant, whose value changes
    between releases. *)

Class Hashlib := {
  pbkdf2_hmac : string → string → string → N → string;
  scrypt : string → string → N → N → N → string;
  DEFAULT_PBKDF2_ITERATIONS : N
}.

(** ** werkzeug.security (imported at [src/app.py] line 4)

    The library is not part of the repository; the functions below follow
    its 3.x sources.  The random source is made explicit: a function that
    draws takes the raw draws as an argument. *)

Module security.
Section with_hashlib.
Context `{Hashlib}.

Definition SALT_CHARS : string :=
  "abcdefghijklmnopqrstuvwxyzABCDEFGHIJKLMNOPQRSTUVWXYZ0123456789".

(** [secrets.choice(SALT_CHARS)] on one raw draw [r] of the system's
    random source: the character at index [randbelow(len(SALT_CHARS))].
    The index is in range, so the default is never taken. *)
Definition choice (r : nat) : ascii :=
  default "a"%char (String.get (r `mod` String.length SALT_CHARS) SALT_CHARS).

(** [gen_salt(length)] on the draws [rs], one per character. *)
Definition gen_salt (rs : list nat) : outcome string :=
  match rs with
  | [] => Raise (ValueError "Salt length must be at least 1.")
  | _ => Ret (string_of_list_ascii (choice <$> rs))
  end.

(** [_hash_internal(method, salt, password)]: the digest in hexadecimal
    and the method string with its parameters spelled out. *)
Definition _hash_internal (method salt password : string)
  : outcome (string * string) :=
  match Str.split ":" method with
  | "scrypt" :: args =>
      match args with
      | [] =>
          let '(n, r, p) := (2 ^ 15, 8, 1)%N in
          Ret (scrypt password salt n r p,
               "scrypt:" +:+ Str.of_N n +:+ ":" +:+ Str.of_N r +:+ ":" +:+ Str.of_N p)
      | [a; b; c] =>
          n ← Str.to_N a; r ← Str.to_N b; p ← Str.to_N c;
          Ret (scrypt password salt n r p,
               "scrypt:" +:+ Str.of_N n +:+ ":" +:+ Str.of_N r +:+ ":" +:+ Str.of_N p)
      | _ => Raise (ValueError "'scrypt' takes 3 arguments.")
      end
  | "pbkdf2" :: args =>
      match args with
      | [] =>
          let hash_name := "sha256" in
          let iterations := DEFAULT_PBKDF2_ITERATIONS in
          Ret (pbkdf2_hmac hash_name password salt iterations,
               "pbkdf2:" +:+ hash_name +:+ ":" +:+ Str.of_N iterations)
      | [hash_name] =>
          let iterations := DEFAULT_PBKDF2_ITERATIONS in
          Ret (pbkdf2_hmac hash_name password salt iterations,
               "pbkdf2:" +:+ hash_name +:+ ":" +:+ Str.of_N iterations)
      | [hash_name; a] =>
          iterations ← Str.to_N a;
          Ret (pbkdf2_hmac hash_name password salt iterations,
               "pbkdf2:" +:+ hash_name +:+ ":" +:+ Str.of_N iterations)
      | _ => Raise (ValueError "'pbkdf2' takes 2 arguments.")
      end
  | _ => Raise (ValueError "Invalid hash method.")
  end.

(** [generate_password_hash(password, method, salt_length)], with the
    [salt_length] draws of the random source passed as [rs]:
    [f"{actual_method}${salt}${h}"]. *)
Definition generate_password_hash (password method : string) (rs : list nat)
  : outcome string :=
  salt ← gen_salt rs;
  '(h, actual_method) ← _hash_internal method salt password;
  Ret (actual_method +:+ "$" +:+ salt +:+ "$" +:+ h).

(** [check_password_hash(pwhash, password)]: a hash that does not split
    into three fields is rejected; [hmac.compare_digest] is string
    equality (its timing is outside this model). *)
Definition check_password_hash (pwhash password : string) : outcome bool :=
  match Str.split3 "$" pwhash with
  | None => Ret false
  | Some (method, salt, hashval) =>
      '(h, _) ← _hash_internal method salt password;
      Ret (bool_decide (h = hashval))
  end.

End with_hashlib.
End security.

(** ** The [User] model ([src/app.py] lines 51-54) and its table *)

Module User.
Record t := mk {
  id : nat;            (* db.Integer, primary_key=True *)
  username : string;   (* db.String(100), unique=True, nullable=False *)
  password : string    (* db.String(200), nullable=False *)
}.
End User.

#[global] Instance User_eq_dec : EqDecision User.t.
Proof. solve_decision. Defined.

(** ** Requests, responses and the per-request context *)

Module Request.
Record t := mk {
  method : string;
  form : gmap string string
}.
End Request.

Inductive response :=
  | Page (status : nat) (template : string) (kwargs : list (string * string))
  | Redirect (location : string)
  | Aborted (status : nat).

(** What a view function reads and writes: the rows of the [user] table
    in insertion order; [session], the entries of Flask's session that
    [src/app.py] itself reads and writes; [flashes], the messages queued by
    [flash], which Flask keeps in the same cookie under the entry
    ['_flashes'] of its own; and the system's random source ([entropy],
    read at [cursor]).  A statement about [session] is a statement about
    the application's entries, not about ['_flashes']. *)
Record ctx := mkctx {
  db : list User.t;
  session : gmap string string;
  flashes : list string;
  entropy : nat → nat;
  cursor : nat
}.

Definition M (A : Type) : Type := ctx → outcome A * ctx.

#[global] Instance M_ret : MRet M := λ A a c, (Ret a, c).
#[global] Instance M_bind : MBind M := λ A B f m c,
  match m c with
  | (Ret a, c') => f a c'
  | (Raise e, c') => (Raise e, c')
  end.

Definition raise {A} (e : exn) : M A := λ c, (Raise e, c).

Definition lift {A} (o : outcome A) : M A := λ c, (o, c).

Section app.
Context `{Hashlib}.

(** [request.form[key]]: a missing key raises [BadRequestKeyError]. *)
Definition form_get (request : Request.t) (key : string) : M string :=
  match Request.form request !! key with
  | Some v => mret v
  | None => raise (BadRequestKeyError key)
  end.

(** [flash(message)] appends to the queue of messages.  (Flask keeps the
    queue in the session cookie under a key of its own, apart from the keys
    the application uses; a template empties it when it shows the
    messages, which no view function does.) *)
Definition flash (message : string) : M () := λ c,
  (Ret (), mkctx (db c) (session c) (flashes c ++ [message]) (entropy c) (cursor c)).

(** [url_for(endpoint)] for the routes declared in [src/app.py], the only
    endpoints it is called on (Flask raises [BuildError] on any other). *)
Definition url_for (endpoint : string) : string :=
  match endpoint with
  | "home" => "/"
  | _ => "/" +:+ endpoint
  end.

Definition redirect (location : string) : M response := mret (Redirect location).

Definition render_template (name : string) (kwargs : list (string * string))
  : M response := mret (Page 200 name kwargs).

(** [User.query.filter_by(username=username).first()]: the first row, in
    table order, whose username equals the argument; [None] when no row
    matches. *)
Definition first_by_username (username : string) (rows : list User.t)
  : option User.t :=
  head (filter (λ u, User.username u = username) rows).

Definition query_filter_by_username_first (username : string) : M (option User.t) :=
  λ c, (Ret (first_by_username username (db c)), c).

(** The row id SQLite gives an inserted row of an INTEGER PRIMARY KEY
    table: one more than the largest id present, 1 in an empty table. *)
Definition next_id (rows : list User.t) : nat :=
  S (foldr Nat.max 0 (User.id <$> rows)).

(** [db.session.add(User(username=..., password=...)); db.session.commit()]:
    the INSERT is refused with [IntegrityError] when the [unique=True]
    column would hold the same username twice; otherwise the row is
    appended with a fresh id. *)
Definition db_session_add_commit (username password : string) : M () := λ c,
  match first_by_username username (db c) with
  | Some _ => (Raise (IntegrityError "UNIQUE constraint failed: user.username"), c)
  | None =>
      (Ret (), mkctx (db c ++ [User.mk (next_id (db c)) username password])
                     (session c) (flashes c) (entropy c) (cursor c))
  end.

(** [salt_length] draws of the random source. *)
Definition draw (n : nat) : M (list nat) := λ c,
  (Ret ((λ i, entropy c (cursor c + i)) <$> seq 0 n),
   mkctx (db c) (session c) (flashes c) (entropy c) (cursor c + n)).

Definition generate_password_hash (password method : string) (salt_length : nat)
  : M string :=
  rs ← draw salt_length;
  lift (security.generate_password_hash password method rs).

Definition check_password_hash (pwhash password : string) : M bool :=
  lift (security.check_password_hash pwhash password).

(** [session['user'] = value] *)
Definition session_set (key value : string) : M () := λ c,
  (Ret (), mkctx (db c) (<[key := value]> (session c)) (flashes c) (entropy c) (cursor c)).

(** [session.pop(key, None)] *)
Definition session_pop (key : string) : M (option string) := λ c,
  (Ret (session c !! key),
   mkctx (db c) (delete key (session c)) (flashes c) (entropy c) (cursor c)).

(** [key in session] and [session[key]] *)
Definition session_get (key : string) : M (option string) := λ c,
  (Ret (session c !! key), c).

(** *** The view functions *)

(** [@app.route('/')] *)
Definition home : M response :=
  render_template "login.html" [].

(** [@app.route('/register', methods=['GET', 'POST'])] *)
Definition register (request : Request.t) : M response :=
  if decide (Request.method request = "POST") then
    username ← form_get request "username";
    password ← form_get request "password";
    existing_user ← query_filter_by_username_first username;
    match existing_user with
    | Some _ =>
        flash "Username already taken. Please choose another.";;
        redirect (url_for "register")
    | None =>
        hashed_password ← generate_password_hash password "pbkdf2:sha256" 16;
        db_session_add_commit username hashed_password;;
        flash "Registration successful! You can now log in.";;
        redirect (url_for "home")
    end
  else render_template "register.html" [].

(** [@app.route('/login', methods=['POST'])]; [login_failed] is the code
    after the [if], lines 101-102. *)
Definition login_failed : M response :=
  flash "Invalid username or password.";;
  redirect (url_for "home").

Definition login (request : Request.t) : M response :=
  username ← form_get request "username";
  password ← form_get request "password";
  user ← query_filter_by_username_first username;
  match user with
  | Some u =>
      ok ← check_password_hash (User.password u) password;
      if ok : bool then
        session_set "user" (User.username u);;
        redirect (url_for "dashboard")
      else login_failed
  | None => login_failed
  end.

(** [@app.route('/dashboard')] *)
Definition dashboard : M response :=
  user ← session_get "user";
  match user with
  | None => redirect (url_for "home")
  | Some u => render_template "dashboard.html" [("username", u)]
  end.

(** [@app.route('/logout', methods=['POST'])] *)
Definition logout : M response :=
  session_pop "user";;
  flash "You have been logged out.";;
  redirect (url_for "home").

(** The read-only probe that gates the protected page: the test
    ['user' in session] and the read [session['user']] of [dashboard]. *)
Definition current_user (c : ctx) : option string := session c !! "user".

(** One request runs at most one view function. *)
Inductive view :=
  | Home
  | Register (request : Request.t)
  | Login (request : Request.t)
  | Dashboard
  | Logout.

Definition run (v : view) : M response :=
  match v with
  | Home => home
  | Register request => register request
  | Login request => login request
  | Dashboard => dashboard
  | Logout => logout
  end.

(** [@app.errorhandler(500)]: the page for an exception that is not an
    HTTP error. *)
Definition internal_error : response := Page 500 "500.html" [].

(** The tables that the application can build, starting from the empty
    table that [db.create_all()] makes, by serving requests; the session,
    the queued messages and the random source of each request are
    arbitrary (requests of different clients interleave). *)
Inductive reachable : list User.t → Prop :=
  | reachable_init : reachable []
  | reachable_step (c : ctx) (v : view) :
      reachable (db c) → reachable (db (run v c).2).

(** A form submission with the two fields of the register and login forms. *)
Definition POST (username password : string) : Request.t :=
  Request.mk "POST" {[ "username" := username; "password" := password ]}.

(** [request] is a POST that carries [username] and [password] in its form,
    among other fields (a CSRF token, for one). *)
Definition submits (request : Request.t) (username password : string) : Prop :=
  Request.method request = "POST"
  ∧ Request.form request !! "username" = Some username
  ∧ Request.form request !! "password" = Some password.

(** The hash that [register] stores for [password] when the random source
    delivers the draws [rs]. *)
Definition stored_hash (password : string) (rs : list nat) : string :=
  let salt := string_of_list_ascii (security.choice <$> rs) in
  "pbkdf2:sha256:" +:+ Str.of_N DEFAULT_PBKDF2_ITERATIONS +:+ "$" +:+ salt
    +:+ "$" +:+ pbkdf2_hmac "sha256" password salt DEFAULT_PBKDF2_ITERATIONS.

(** The sixteen draws that the next [generate_password_hash] in [c] takes,
    and the salt that [gen_salt] makes of them. *)
Definition next_draws (c : ctx) : list nat :=
  (λ i, entropy c (cursor c + i)) <$> seq 0 16.

Definition next_salt (c : ctx) : string :=
  string_of_list_ascii (security.choice <$> next_draws c).

(** *** How the outcomes named by the design surface in the responses

    A view function reports by a queued message and a redirect; [before]
    is the context the request started in, [res] what the view returned. *)

Definition flashed (message : string) (before : ctx) (res : outcome response * ctx)
  : Prop :=
  flashes res.2 = flashes before ++ [message].

(** [register] succeeded: lines 82-83. *)
Definition Registered (before : ctx) (res : outcome response * ctx) : Prop :=
  res.1 = Ret (Redirect "/")
  ∧ flashed "Registration successful! You can now log in." before res.

(** [register] refused a taken username: lines 71-72. *)
Definition DuplicateUsername (before : ctx) (res : outcome response * ctx) : Prop :=
  res.1 = Ret (Redirect "/register")
  ∧ flashed "Username already taken. Please choose another." before res.

(** [login] succeeded: line 99. *)
Definition Authenticated (res : outcome response * ctx) : Prop :=
  res.1 = Ret (Redirect "/dashboard").

(** [login] refused the credentials: lines 101-102. *)
Definition InvalidCredentials (before : ctx) (res : outcome response * ctx) : Prop :=
  res.1 = Ret (Redirect "/")
  ∧ flashed "Invalid username or password." before res.

(** *** Histories

    [later rows rows']: the table [rows'] comes from the table [rows] by
    serving requests, of any clients. *)
Inductive later (rows : list User.t) : list User.t → Prop :=
  | later_refl : later rows rows
  | later_step (c : ctx) (v : view) :
      later rows (db c) → later rows (db (run v c).2).

(** One step in the life of one client's session: a request of that
    client, which runs a view on its session, or a request of some other
    client, which runs on another session and leaves this one alone but
    may change the shared table. *)
Inductive client_step : ctx → ctx → Prop :=
  | own_request (c : ctx) (v : view) :
      client_step c (run v c).2
  | other_request (c c' c'' : ctx) (v : view) :
      db c' = db c →
      db c'' = db (run v c').2 →
      session c'' = session c →
      client_step c c''.

End app.

(** A stand-in for hashlib on which the view functions can be run: the
    "digest" is the salt followed by the password. *)
Definition example_hashlib : Hashlib := {|
  pbkdf2_hmac := λ _ password salt _, salt +:+ password;
  scrypt := λ password salt _ _ _, salt +:+ password;
  DEFAULT_PBKDF2_ITERATIONS := 600000
|}.

(** A fresh client of a fresh installation: empty table, empty session. *)
Definition example_ctx : ctx := mkctx [] ∅ [] (λ i, 7 * i + 3) 0.

(** * Properties *)

(** ** Strings *)

Module StrFacts.

Lemma contains_cons c a r :
  Str.contains c (String a r) = Ascii.eqb a c || Str.contains c r.
Proof. simpl. by destruct (Ascii.eqb a c). Qed.

Lemma app_nil_l s : "" +:+ s = s.
Proof. reflexivity. Qed.

Lemma app_cons x a b : String x a +:+ b = String x (a +:+ b).
Proof. reflexivity. Qed.

Lemma contains_app c a b :
  Str.contains c (a +:+ b) = Str.contains c a || Str.contains c b.
Proof.
  induction a as [|x a IH]; [done|].
  by rewrite app_cons, !contains_cons, IH, orb_assoc.
Qed.

Lemma cut_app sep a b :
  Str.contains sep a = false →
  Str.cut sep (a +:+ String sep b) = Some (a, b).
Proof.
  induction a as [|x a IH].
  - intros _. rewrite app_nil_l. cbn [Str.cut]. by rewrite Ascii.eqb_refl.
  - rewrite contains_cons. intros [Hx Ha]%orb_false_elim.
    rewrite app_cons. cbn [Str.cut]. by rewrite Hx, IH.
Qed.

Lemma split_no_sep sep a :
  Str.contains sep a = false → Str.split sep a = [a].
Proof.
  induction a as [|x a IH]; [done|].
  rewrite contains_cons. intros [Hx Ha]%orb_false_elim.
  cbn [Str.split]. by rewrite Hx, IH.
Qed.

Lemma split3_app sep a b c :
  Str.contains sep a = false → Str.contains sep b = false →
  Str.split3 sep (a +:+ String sep (b +:+ String sep c)) = Some (a, b, c).
Proof.
  intros Ha Hb. unfold Str.split3. by rewrite !cut_app.
Qed.

(** Decimal numerals hold digits only. *)
Lemma contains_digits c d :
  Str.contains c "0123456789" = false →
  Str.contains c (NilEmpty.string_of_uint d) = false.
Proof.
  rewrite !contains_cons. intros Hc.
  repeat (apply orb_false_elim in Hc as [? Hc]).
  induction d; cbn [NilEmpty.string_of_uint]; rewrite ?contains_cons;
    [done|by apply orb_false_intro..].
Qed.

Lemma contains_of_N c n :
  Str.contains c "0123456789" = false →
  Str.contains c (Str.of_N n) = false.
Proof.
  intros Hc. unfold Str.of_N, NilZero.string_of_uint.
  destruct (N.to_uint n) eqn:E; try (rewrite <- E; by apply contains_digits).
  rewrite !contains_cons in *. by apply orb_false_elim in Hc as [-> _].
Qed.

Lemma to_N_of_N n : Str.to_N (Str.of_N n) = Ret n.
Proof.
  unfold Str.to_N, Str.of_N. rewrite NilZero.usu.
  - by rewrite DecimalN.Unsigned.of_to.
  - destruct n as [|p]; [done|]. apply DecimalPos.Unsigned.to_uint_nonnil.
Qed.

Lemma get_not_contained c s i a :
  Str.contains c s = false → String.get i s = Some a → a ≠ c.
Proof.
  revert i. induction s as [|x s IH]; intros i; [done|].
  rewrite contains_cons. intros [Hx Hs]%orb_false_elim.
  destruct i as [|i]; cbn [String.get].
  - intros [= <-]. by apply Ascii.eqb_neq.
  - by apply IH.
Qed.

Lemma length_string_of_list_ascii l :
  String.length (string_of_list_ascii l) = length l.
Proof. induction l; simpl; congruence. Qed.


End StrFacts.

(** ** werkzeug.security: what is written can be checked *)

Section security_facts.
Context `{Hashlib}.

Lemma choice_not_dollar r : security.choice r ≠ "$"%char.
Proof.
  unfold security.choice.
  destruct (String.get _ security.SALT_CHARS) as [a|] eqn:E; [|done].
  by eapply StrFacts.get_not_contained, E.
Qed.

Lemma salt_no_dollar rs :
  Str.contains "$" (string_of_list_ascii (security.choice <$> rs)) = false.
Proof.
  induction rs as [|r rs IH]; [done|].
  cbn [fmap list_fmap string_of_list_ascii].
  rewrite StrFacts.contains_cons, IH, orb_false_r.
  apply Ascii.eqb_neq, choice_not_dollar.
Qed.

Lemma hash_internal_pbkdf2_sha256 salt password :
  security._hash_internal "pbkdf2:sha256" salt password
  = Ret (pbkdf2_hmac "sha256" password salt DEFAULT_PBKDF2_ITERATIONS,
         "pbkdf2:sha256:" +:+ Str.of_N DEFAULT_PBKDF2_ITERATIONS).
Proof. reflexivity. Qed.

Lemma hash_internal_stored n salt password :
  security._hash_internal ("pbkdf2:sha256:" +:+ Str.of_N n) salt password
  = Ret (pbkdf2_hmac "sha256" password salt n,
         "pbkdf2:sha256:" +:+ Str.of_N n).
Proof.
  unfold security._hash_internal.
  assert (Str.split ":" ("pbkdf2:sha256:" +:+ Str.of_N n)
          = ["pbkdf2"; "sha256"; Str.of_N n]) as ->.
  { rewrite !StrFacts.app_cons, StrFacts.app_nil_l.
    cbn -[Str.of_N]. by rewrite StrFacts.split_no_sep
      by by apply StrFacts.contains_of_N. }
  cbn -[Str.of_N Str.to_N]. rewrite StrFacts.to_N_of_N. reflexivity.
Qed.

Lemma generate_stored password r rs :
  security.generate_password_hash password "pbkdf2:sha256" (r :: rs)
  = Ret (stored_hash password (r :: rs)).
Proof.
  unfold security.generate_password_hash, security.gen_salt.
  cbn [mbind outcome_bind]. rewrite hash_internal_pbkdf2_sha256. reflexivity.
Qed.

(** Checking a stored hash recomputes the digest with the stored salt and
    iteration count and compares it with the stored digest. *)
Lemma check_stored password rs candidate :
  security.check_password_hash (stored_hash password rs) candidate
  = Ret (bool_decide
           (pbkdf2_hmac "sha256" candidate
              (string_of_list_ascii (security.choice <$> rs))
              DEFAULT_PBKDF2_ITERATIONS
            = pbkdf2_hmac "sha256" password
                (string_of_list_ascii (security.choice <$> rs))
                DEFAULT_PBKDF2_ITERATIONS)).
Proof.
  unfold security.check_password_hash, stored_hash.
  cbv zeta. set (salt := string_of_list_ascii _).
  change ("pbkdf2:sha256:" +:+ Str.of_N DEFAULT_PBKDF2_ITERATIONS +:+ "$"
            +:+ salt +:+ "$" +:+ ?h)
    with (("pbkdf2:sha256:" +:+ Str.of_N DEFAULT_PBKDF2_ITERATIONS) +:+ String "$"
            (salt +:+ String "$" h)).
  rewrite StrFacts.split3_app.
  - rewrite hash_internal_stored. reflexivity.
  - rewrite StrFacts.contains_app.
    by rewrite StrFacts.contains_of_N.
  - apply salt_no_dollar.
Qed.

Lemma check_stored_same password rs :
  security.check_password_hash (stored_hash password rs) password = Ret true.
Proof. rewrite check_stored. by rewrite bool_decide_eq_true_2. Qed.


End security_facts.

(** ** The view functions, case by case *)

Ltac run_M :=
  cbv [mbind mret M_bind M_ret form_get query_filter_by_username_first
       flash redirect render_template raise lift session_set session_pop
       session_get draw db_session_add_commit generate_password_hash
       check_password_hash login_failed];
  cbn [db session flashes entropy cursor].

Section app_facts.
Context `{Hashlib}.

Lemma submits_POST u p : submits (POST u p) u p.
Proof. unfold submits, POST; simpl. by simplify_map_eq. Qed.

Lemma register_fresh request u p c :
  submits request u p →
  first_by_username u (db c) = None →
  register request c
  = (Ret (Redirect "/"),
     mkctx (db c ++ [User.mk (next_id (db c)) u (stored_hash p (next_draws c))])
           (session c)
           (flashes c ++ ["Registration successful! You can now log in."])
           (entropy c) (cursor c + 16)).
Proof.
  intros (Hm & Hu & Hp) Hfree. unfold register.
  rewrite decide_True by done. run_M.
  rewrite Hu, Hp. run_M. rewrite Hfree. run_M.
  change ((λ i, entropy c (cursor c + i)) <$> seq 0 16) with (next_draws c).
  unfold next_draws at 1. cbn [seq fmap list_fmap].
  rewrite generate_stored, Hfree. reflexivity.
Qed.

Lemma register_taken request u p c r :
  submits request u p →
  first_by_username u (db c) = Some r →
  register request c
  = (Ret (Redirect "/register"),
     mkctx (db c) (session c)
           (flashes c ++ ["Username already taken. Please choose another."])
           (entropy c) (cursor c)).
Proof.
  intros (Hm & Hu & Hp) Hr. unfold register.
  rewrite decide_True by done. run_M. by rewrite Hu, Hp, Hr.
Qed.

Lemma login_accepted request u p c r :
  submits request u p →
  first_by_username u (db c) = Some r →
  security.check_password_hash (User.password r) p = Ret true →
  login request c
  = (Ret (Redirect "/dashboard"),
     mkctx (db c) (<["user" := User.username r]> (session c)) (flashes c)
           (entropy c) (cursor c)).
Proof.
  intros (Hm & Hu & Hp) Hr Hok. unfold login. run_M.
  by rewrite Hu, Hp, Hr, Hok.
Qed.

Lemma login_unknown request u p c :
  submits request u p →
  first_by_username u (db c) = None →
  login request c
  = (Ret (Redirect "/"),
     mkctx (db c) (session c) (flashes c ++ ["Invalid username or password."])
           (entropy c) (cursor c)).
Proof.
  intros (Hm & Hu & Hp) Hr. unfold login. run_M. by rewrite Hu, Hp, Hr.
Qed.

Lemma login_rejected request u p c r :
  submits request u p →
  first_by_username u (db c) = Some r →
  security.check_password_hash (User.password r) p = Ret false →
  login request c
  = (Ret (Redirect "/"),
     mkctx (db c) (session c) (flashes c ++ ["Invalid username or password."])
           (entropy c) (cursor c)).
Proof.
  intros (Hm & Hu & Hp) Hr Hok. unfold login. run_M.
  by rewrite Hu, Hp, Hr, Hok.
Qed.

Lemma logout_eq c :
  logout c
  = (Ret (Redirect "/"),
     mkctx (db c) (delete "user" (session c))
           (flashes c ++ ["You have been logged out."]) (entropy c) (cursor c)).
Proof. reflexivity. Qed.

Lemma dashboard_eq c :
  dashboard c
  = (Ret (match current_user c with
          | None => Redirect "/"
          | Some u => Page 200 "dashboard.html" [("username", u)]
          end), c).
Proof. unfold dashboard, current_user. run_M. by destruct (session c !! "user"). Qed.

End app_facts.

(** ** The table *)

Section table_facts.

Lemma first_by_username_None u rows :
  first_by_username u rows = None ↔ u ∉ User.username <$> rows.
Proof.
  unfold first_by_username. induction rows as [|r rows IH].
  - split; [intros _; apply not_elem_of_nil|done].
  - rewrite filter_cons, fmap_cons, not_elem_of_cons. case_decide.
    + split; [done|]. intros [? _]. congruence.
    + rewrite IH. split; [by intros ?; split|tauto].
Qed.

Lemma first_by_username_Some u rows r :
  first_by_username u rows = Some r → r ∈ rows ∧ User.username r = u.
Proof.
  unfold first_by_username. intros Hhd.
  apply head_Some_elem_of, list_elem_of_filter in Hhd. tauto.
Qed.

Lemma first_by_username_app u rows row :
  first_by_username u (rows ++ [row])
  = match first_by_username u rows with
    | Some r => Some r
    | None => if decide (User.username row = u) then Some row else None
    end.
Proof.
  unfold first_by_username. rewrite filter_app.
  destruct (filter _ rows) as [|r rs]; [|done].
  cbn [app head]. rewrite filter_cons, filter_nil. by case_decide.
Qed.

Lemma NoDup_usernames_snoc rows row :
  NoDup (User.username <$> rows) →
  first_by_username (User.username row) rows = None →
  NoDup (User.username <$> rows ++ [row]).
Proof.
  intros Hnd Hfree%first_by_username_None.
  rewrite fmap_app. apply NoDup_app. split_and!; [done| |apply NoDup_singleton].
  intros x Hx ->%list_elem_of_singleton. done.
Qed.

End table_facts.

(** ** Registration and login *)

Section claims.
Context `{Hashlib}.

(** Every way [login] can end: an exception before anything is written,
    the rejection of lines 101-102, or the acceptance of lines 98-99. *)
Lemma login_cases request c :
  (∃ e, login request c = (Raise e, c))
  ∨ login request c
    = (Ret (Redirect "/"),
       mkctx (db c) (session c) (flashes c ++ ["Invalid username or password."])
             (entropy c) (cursor c))
  ∨ (∃ u p r,
       Request.form request !! "username" = Some u
       ∧ Request.form request !! "password" = Some p
       ∧ first_by_username u (db c) = Some r
       ∧ security.check_password_hash (User.password r) p = Ret true
       ∧ login request c
         = (Ret (Redirect "/dashboard"),
            mkctx (db c) (<["user" := User.username r]> (session c)) (flashes c)
                  (entropy c) (cursor c))).
Proof.
  unfold login. run_M.
  destruct (Request.form request !! "username") as [u|] eqn:Hu; [|by left; eexists].
  destruct (Request.form request !! "password") as [p|] eqn:Hp; [|by left; eexists].
  destruct (first_by_username u (db c)) as [r|] eqn:Hr; [|by right; left].
  destruct (security.check_password_hash (User.password r) p) as [[]|e] eqn:Hok.
  - right; right. by exists u, p, r.
  - by right; left.
  - left. by eexists.
Qed.

(** Every way [register] can leave the table: untouched, or one row longer
    with a username that no earlier row has and a hash written by
    [generate_password_hash]. *)
Lemma register_db request c :
  db (register request c).2 = db c
  ∨ ∃ u p,
      db (register request c).2
      = db c ++ [User.mk (next_id (db c)) u (stored_hash p (next_draws c))]
      ∧ first_by_username u (db c) = None.
Proof.
  destruct (decide (Request.method request = "POST")) as [Hm|Hm];
    [|by unfold register; rewrite decide_False by done; left].
  destruct (Request.form request !! "username") as [u|] eqn:Hu;
    [|by unfold register; rewrite decide_True by done; run_M; rewrite Hu; left].
  destruct (Request.form request !! "password") as [p|] eqn:Hp;
    [|by unfold register; rewrite decide_True by done; run_M; rewrite Hu, Hp; left].
  destruct (first_by_username u (db c)) as [r|] eqn:Hr.
  - left. by rewrite (register_taken _ u p _ r).
  - right. exists u, p. by rewrite (register_fresh _ u p).
Qed.

(** Every stored password of a reachable table was written by
    [generate_password_hash] with sixteen draws. *)
Lemma reachable_generated rows :
  reachable rows →
  Forall (λ r, ∃ p rs, User.password r = stored_hash p rs) rows.
Proof.
  induction 1 as [|c v _ IH]; [constructor|].
  destruct v as [|request|request| |]; cbn [run]; try done.
  - destruct (register_db request c) as [->|(u & p & -> & _)]; [done|].
    apply Forall_app. split; [done|]. apply Forall_singleton. by eexists _, _.
  - by destruct (login_cases request c)
      as [[e ->]|[->|(u & p & r & _ & _ & _ & _ & ->)]].
  - by rewrite dashboard_eq.
Qed.

(** On a reachable table a submitted login form is either accepted or
    refused as invalid credentials: the hash check raises nothing. *)
Lemma login_answers request u p c :
  reachable (db c) →
  submits request u p →
  Authenticated (login request c) ∨ InvalidCredentials c (login request c).
Proof.
  intros Hreach Hsub.
  destruct (first_by_username u (db c)) as [r|] eqn:Hr.
  - pose proof (reachable_generated _ Hreach) as Hgen.
    rewrite Forall_forall in Hgen.
    destruct (Hgen r) as (p0 & rs & Hpw);
      [by apply first_by_username_Some in Hr as [? _]|].
    pose proof (check_stored p0 rs p) as Hcheck. rewrite <- Hpw in Hcheck.
    destruct (bool_decide _) in Hcheck.
    + left. unfold Authenticated. by rewrite (login_accepted _ u p _ r).
    + right. by rewrite (login_rejected _ u p _ r).
  - right. by rewrite (login_unknown _ u p).
Qed.

(** C1. For every username and password, when the username is not yet in
    the table, [register] with the pair succeeds, and a following [login]
    with the same pair (by any client, on the table that [register] left)
    succeeds and binds the session to that username: [current_user]
    returns it and [dashboard] renders the page for it. *)
Theorem register_then_authenticate request u p c c' :
  submits request u p →
  first_by_username u (db c) = None →
  db c' = db (register request c).2 →
  Registered c (register request c)
  ∧ Authenticated (login request c')
  ∧ current_user (login request c').2 = Some u
  ∧ (dashboard (login request c').2).1
    = Ret (Page 200 "dashboard.html" [("username", u)]).
Proof.
  intros Hsub Hfree Hdb. rewrite (register_fresh _ u p) in * by done.
  cbn [snd db] in Hdb. split; [done|].
  set (row := User.mk _ _ _) in Hdb.
  assert (first_by_username u (db c') = Some row) as Hrow.
  { rewrite Hdb, first_by_username_app, Hfree. by rewrite decide_True. }
  rewrite (login_accepted _ u p _ row Hsub Hrow) by apply check_stored_same.
  assert (current_user
            (mkctx (db c') (<["user" := User.username row]> (session c'))
                   (flashes c') (entropy c') (cursor c')) = Some u) as Hcur
    by apply lookup_insert_eq.
  split_and!; [done|done|].
  rewrite dashboard_eq. cbn [fst snd]. by rewrite Hcur.
Qed.

(** C2. [login] answers an unknown username and a known username whose
    stored hash does not verify the submitted password in one and the same
    way: the same response, the same queued message, and nothing else
    changed; the answer does not depend on which of the two it was. *)
Theorem login_failure_causes_agree request u p c :
  submits request u p →
  (first_by_username u (db c) = None
   ∨ ∃ r, first_by_username u (db c) = Some r
        ∧ security.check_password_hash (User.password r) p = Ret false) →
  login request c
  = (Ret (Redirect "/"),
     mkctx (db c) (session c) (flashes c ++ ["Invalid username or password."])
           (entropy c) (cursor c))
  ∧ InvalidCredentials c (login request c).
Proof.
  intros Hsub Hcause.
  assert (login request c
          = (Ret (Redirect "/"),
             mkctx (db c) (session c)
                   (flashes c ++ ["Invalid username or password."])
                   (entropy c) (cursor c))) as Heq.
  { destruct Hcause as [Hnone|(r & Hr & Hno)].
    - by apply (login_unknown _ u p).
    - by apply (login_rejected _ u p _ r). }
  split; [done|]. by rewrite Heq.
Qed.

(** C3. When the username is already in the table, [register] with that
    username and any password is refused as a duplicate; the table is left
    as it was, so the row found for the username, and with it the stored
    hash, is the one from before. *)
Theorem register_duplicate request u p c r :
  submits request u p →
  first_by_username u (db c) = Some r →
  DuplicateUsername c (register request c)
  ∧ db (register request c).2 = db c
  ∧ first_by_username u (db (register request c).2) = Some r.
Proof.
  intros Hsub Hr. by rewrite (register_taken _ u p _ r).
Qed.

(** C4. In every table reachable from the empty one by serving requests,
    no two rows share a username; and a request that changes the table is
    a [register] that appended one row whose username was not there. *)
Theorem usernames_unique :
  (∀ rows, reachable rows → NoDup (User.username <$> rows))
  ∧ (∀ v c, db (run v c).2 ≠ db c →
       ∃ request row, v = Register request
                      ∧ db (run v c).2 = db c ++ [row]
                      ∧ first_by_username (User.username row) (db c) = None).
Proof.
  assert (∀ v c, db (run v c).2 ≠ db c →
       ∃ request row, v = Register request
                      ∧ db (run v c).2 = db c ++ [row]
                      ∧ first_by_username (User.username row) (db c) = None)
    as Hwrite.
  { intros [|request|request| |] c; cbn [run]; try done.
    - destruct (register_db request c) as [?|(u & p & ? & ?)]; [done|].
      intros _. by eexists request, (User.mk _ u _).
    - by destruct (login_cases request c)
        as [[e ->]|[->|(u & p & r & _ & _ & _ & _ & ->)]].
    - by rewrite dashboard_eq. }
  split; [|done].
  induction 1 as [|c v _ IH]; [constructor|].
  destruct (decide (db (run v c).2 = db c)) as [->|Hne]; [done|].
  destruct (Hwrite v c Hne) as (request & row & _ & -> & Hfree).
  by apply NoDup_usernames_snoc.
Qed.

(** C5. A [login] that does not succeed, for whatever reason, leaves the
    session as it was: [current_user] gives the same answer as before, be
    it nobody or a username. *)
Theorem login_failure_keeps_session request c :
  ¬ Authenticated (login request c) →
  session (login request c).2 = session c
  ∧ current_user (login request c).2 = current_user c.
Proof.
  unfold Authenticated, current_user.
  destruct (login_cases request c)
    as [[e ->]|[->|(u & p & r & _ & _ & _ & _ & ->)]]; done.
Qed.

(** A stored hash rejects a password whose digest under the stored salt
    differs from the stored digest. *)
Lemma check_stored_other password rs candidate :
  pbkdf2_hmac "sha256" candidate
    (string_of_list_ascii (security.choice <$> rs)) DEFAULT_PBKDF2_ITERATIONS
  ≠ pbkdf2_hmac "sha256" password
      (string_of_list_ascii (security.choice <$> rs)) DEFAULT_PBKDF2_ITERATIONS →
  security.check_password_hash (stored_hash password rs) candidate = Ret false.
Proof. intros Hne. rewrite check_stored. by rewrite bool_decide_eq_false_2. Qed.

(** C6. From an empty table and a session with nobody logged in:
    registering alice/secret1 succeeds; logging in with alice/secret1
    succeeds and [current_user] is alice; after [logout], [current_user] is
    nobody; logging in with alice/wrong is refused as invalid credentials
    and [current_user] is still nobody.  The digest of "wrong" is taken to
    differ from the digest of "secret1" under the salt drawn. *)
Theorem scenario_alice c0 :
  db c0 = [] →
  current_user c0 = None →
  pbkdf2_hmac "sha256" "wrong" (next_salt c0) DEFAULT_PBKDF2_ITERATIONS
  ≠ pbkdf2_hmac "sha256" "secret1" (next_salt c0) DEFAULT_PBKDF2_ITERATIONS →
  let r1 := register (POST "alice" "secret1") c0 in
  let r2 := login (POST "alice" "secret1") r1.2 in
  let r3 := logout r2.2 in
  let r4 := login (POST "alice" "wrong") r3.2 in
  Registered c0 r1
  ∧ Authenticated r2 ∧ current_user r2.2 = Some "alice"
  ∧ current_user r3.2 = None
  ∧ InvalidCredentials r3.2 r4 ∧ current_user r4.2 = None.
Proof.
  intros Hdb Hanon Hdigest r1 r2 r3 r4.
  assert (first_by_username "alice" (db c0) = None) as Hfree by by rewrite Hdb.
  pose proof (register_fresh _ _ _ c0 (submits_POST "alice" "secret1") Hfree) as E1.
  fold r1 in E1. rewrite Hdb in E1. cbn [app] in E1.
  set (row := User.mk _ _ _) in E1.
  assert (login (POST "alice" "secret1") r1.2
          = (Ret (Redirect "/dashboard"),
             mkctx [row] (<["user" := "alice"]> (session c0))
                   (flashes r1.2) (entropy c0) (cursor c0 + 16))) as E2.
  { rewrite (login_accepted _ _ _ _ row (submits_POST "alice" "secret1"));
      rewrite ?E1; [done|done|apply check_stored_same]. }
  fold r2 in E2.
  assert (r3 = (Ret (Redirect "/"),
                mkctx [row] (delete "user" (<["user" := "alice"]> (session c0)))
                      (flashes r2.2 ++ ["You have been logged out."])
                      (entropy c0) (cursor c0 + 16))) as E3.
  { unfold r3. rewrite logout_eq, E2. done. }
  assert (r4 = (Ret (Redirect "/"),
                mkctx [row] (delete "user" (<["user" := "alice"]> (session c0)))
                      (flashes r3.2 ++ ["Invalid username or password."])
                      (entropy c0) (cursor c0 + 16))) as E4.
  { unfold r4.
    rewrite (login_rejected _ _ _ _ row (submits_POST "alice" "wrong"));
      rewrite ?E3; [done|done|by apply check_stored_other]. }
  split_and!.
  - by rewrite E1.
  - unfold Authenticated. by rewrite E2.
  - rewrite E2. apply lookup_insert_eq.
  - rewrite E3. apply lookup_delete_eq.
  - by rewrite E4.
  - rewrite E4. apply lookup_delete_eq.
Qed.

(** C7. [logout] never fails and leaves nobody logged in; on a session
    with nobody logged in it leaves the session as it was; and a second
    [logout] leaves the session that the first one left. *)
Theorem logout_idempotent c :
  (logout c).1 = Ret (Redirect "/")
  ∧ current_user (logout c).2 = None
  ∧ (current_user c = None → session (logout c).2 = session c)
  ∧ session (logout (logout c).2).2 = session (logout c).2.
Proof.
  rewrite !logout_eq. cbn [fst snd session]. unfold current_user.
  split_and!; [done|apply lookup_delete_eq|apply delete_id|apply delete_delete_eq].
Qed.



(** C9 fails on the code: [register] on an empty table accepts the empty
    string as a username and stores a row for it, so a reachable table holds
    a row whose username is empty. *)
Theorem register_empty_username :
  ∃ rows, reachable rows ∧ "" ∈ User.username <$> rows.
Proof.
  set (c := mkctx [] ∅ [] (λ i, i) 0).
  exists (db (run (Register (POST "" "x")) c).2). split.
  - apply (reachable_step c). constructor.
  - cbn [run]. rewrite (register_fresh _ "" "x") by (done || apply submits_POST).
    cbn [snd db app fmap list_fmap User.username]. apply list_elem_of_singleton. done.
Qed.

(** C10. A [login] that succeeds binds the session to the username that
    was submitted, whatever the session held before, another username
    included. *)
Theorem login_success_rebinds request c :
  Authenticated (login request c) →
  ∃ u, Request.form request !! "username" = Some u
     ∧ session (login request c).2 = <["user" := u]> (session c)
     ∧ current_user (login request c).2 = Some u.
Proof.
  unfold Authenticated, current_user.
  destruct (login_cases request c)
    as [[e ->]|[->|(u & p & r & Hu & _ & Hr & _ & ->)]]; [done..|].
  intros _. apply first_by_username_Some in Hr as [_ ->].
  exists u. cbn [snd session]. split_and!; [done|done|apply lookup_insert_eq].
Qed.

End claims.

(** ** The theorems at work on a small installation *)

Section examples.
#[local] Existing Instance example_hashlib.

Lemma register_then_authenticate_example :
  let request := POST "alice" "secret1" in
  let c := example_ctx in
  let c' := (register request c).2 in
  submits request "alice" "secret1"
  ∧ first_by_username "alice" (db c) = None
  ∧ db c' = db (register request c).2
  ∧ Registered c (register request c)
  ∧ Authenticated (login request c')
  ∧ current_user (login request c').2 = Some "alice"
  ∧ (dashboard (login request c').2).1
    = Ret (Page 200 "dashboard.html" [("username", "alice")]).
Proof.
  intros request c c'.
  assert (submits request "alice" "secret1") as H1
    by (repeat split; vm_compute; reflexivity).
  assert (first_by_username "alice" (db c) = None) as H2 by reflexivity.
  assert (db c' = db (register request c).2) as H3 by reflexivity.
  exact (conj H1 (conj H2 (conj H3
           (register_then_authenticate request "alice" "secret1" c c' H1 H2 H3)))).
Defined.

Lemma login_failure_causes_agree_example :
  let c := (register (POST "alice" "secret1") example_ctx).2 in
  let request := POST "alice" "wrong" in
  submits request "alice" "wrong"
  ∧ (∃ r, first_by_username "alice" (db c) = Some r
        ∧ security.check_password_hash (User.password r) "wrong" = Ret false)
  ∧ InvalidCredentials c (login request c).
Proof.
  intros c request.
  assert (submits request "alice" "wrong") as H1
    by (repeat split; vm_compute; reflexivity).
  assert (∃ r, first_by_username "alice" (db c) = Some r
             ∧ security.check_password_hash (User.password r) "wrong" = Ret false)
    as H2.
  { exists (User.mk 1 "alice" (stored_hash "secret1" (next_draws example_ctx))).
    split; vm_compute; reflexivity. }
  exact (conj H1 (conj H2
           (proj2 (login_failure_causes_agree request "alice" "wrong" c H1
                     (or_intror H2))))).
Defined.

Lemma register_duplicate_example :
  let c := (register (POST "alice" "secret1") example_ctx).2 in
  let request := POST "alice" "other" in
  let r := User.mk 1 "alice" (stored_hash "secret1" (next_draws example_ctx)) in
  submits request "alice" "other"
  ∧ first_by_username "alice" (db c) = Some r
  ∧ DuplicateUsername c (register request c)
  ∧ db (register request c).2 = db c
  ∧ first_by_username "alice" (db (register request c).2) = Some r.
Proof.
  intros c request r.
  assert (submits request "alice" "other") as H1
    by (repeat split; vm_compute; reflexivity).
  assert (first_by_username "alice" (db c) = Some r) as H2
    by (vm_compute; reflexivity).
  exact (conj H1 (conj H2 (register_duplicate request "alice" "other" c r H1 H2))).
Defined.

Lemma usernames_unique_example :
  let c := example_ctx in
  let v := Register (POST "alice" "secret1") in
  reachable (db (run v c).2)
  ∧ NoDup (User.username <$> db (run v c).2)
  ∧ db (run v c).2 ≠ db c
  ∧ ∃ request row, v = Register request
                   ∧ db (run v c).2 = db c ++ [row]
                   ∧ first_by_username (User.username row) (db c) = None.
Proof.
  intros c v.
  assert (reachable (db (run v c).2)) as H1
    by apply (reachable_step c v), reachable_init.
  assert (db (run v c).2 ≠ db c) as H2 by (vm_compute; discriminate).
  exact (conj H1 (conj (proj1 usernames_unique _ H1)
           (conj H2 (proj2 usernames_unique v c H2)))).
Defined.

Lemma login_failure_keeps_session_example :
  let c := mkctx [] {[ "user" := "bob" ]} [] (λ i, i) 0 in
  let request := POST "mallory" "guess" in
  ¬ Authenticated (login request c)
  ∧ session (login request c).2 = session c
  ∧ current_user (login request c).2 = current_user c.
Proof.
  intros c request.
  assert (¬ Authenticated (login request c)) as H1
    by (vm_compute; discriminate).
  exact (conj H1 (login_failure_keeps_session request c H1)).
Defined.

Lemma scenario_alice_example :
  let c0 := example_ctx in
  let r1 := register (POST "alice" "secret1") c0 in
  let r2 := login (POST "alice" "secret1") r1.2 in
  let r3 := logout r2.2 in
  let r4 := login (POST "alice" "wrong") r3.2 in
  db c0 = []
  ∧ current_user c0 = None
  ∧ pbkdf2_hmac "sha256" "wrong" (next_salt c0) DEFAULT_PBKDF2_ITERATIONS
    ≠ pbkdf2_hmac "sha256" "secret1" (next_salt c0) DEFAULT_PBKDF2_ITERATIONS
  ∧ Registered c0 r1
  ∧ Authenticated r2 ∧ current_user r2.2 = Some "alice"
  ∧ current_user r3.2 = None
  ∧ InvalidCredentials r3.2 r4 ∧ current_user r4.2 = None.
Proof.
  intros c0.
  assert (db c0 = []) as H1 by reflexivity.
  assert (current_user c0 = None) as H2 by reflexivity.
  assert (pbkdf2_hmac "sha256" "wrong" (next_salt c0) DEFAULT_PBKDF2_ITERATIONS
          ≠ pbkdf2_hmac "sha256" "secret1" (next_salt c0)
              DEFAULT_PBKDF2_ITERATIONS) as H3
    by (vm_compute; discriminate).
  exact (conj H1 (conj H2 (conj H3 (scenario_alice c0 H1 H2 H3)))).
Defined.

Lemma logout_idempotent_example :
  let c := example_ctx in
  current_user c = None
  ∧ (logout c).1 = Ret (Redirect "/")
  ∧ current_user (logout c).2 = None
  ∧ session (logout c).2 = session c
  ∧ session (logout (logout c).2).2 = session (logout c).2.
Proof.
  intros c.
  assert (current_user c = None) as H1 by reflexivity.
  destruct (logout_idempotent c) as (Hret & Hnone & Hnoop & Hidem).
  exact (conj H1 (conj Hret (conj Hnone (conj (Hnoop H1) Hidem)))).
Defined.



Lemma login_success_rebinds_example :
  let c1 := (register (POST "alice" "secret1") example_ctx).2 in
  let c := mkctx (db c1) {[ "user" := "bob" ]} [] (entropy c1) (cursor c1) in
  let request := POST "alice" "secret1" in
  current_user c = Some "bob"
  ∧ Authenticated (login request c)
  ∧ ∃ u, Request.form request !! "username" = Some u
       ∧ session (login request c).2 = <["user" := u]> (session c)
       ∧ current_user (login request c).2 = Some u.
Proof.
  intros c1 c request.
  assert (current_user c = Some "bob") as H0 by (vm_compute; reflexivity).
  assert (Authenticated (login request c)) as H1 by (vm_compute; reflexivity).
  exact (conj H0 (conj H1 (login_success_rebinds request c H1))).
Defined.

End examples.

(** ** Every way the views can end *)

Section view_facts.
Context `{Hashlib}.

(** [register], case by case: the form page for a request that is not a
    POST, [BadRequestKeyError] for a missing field, the duplicate answer,
    or the new row. *)
Lemma register_cases request c :
  (Request.method request ≠ "POST"
   ∧ register request c = (Ret (Page 200 "register.html" []), c))
  ∨ (Request.method request = "POST"
     ∧ ∃ key, (key = "username" ∨ key = "password")
            ∧ Request.form request !! key = None
            ∧ register request c = (Raise (BadRequestKeyError key), c))
  ∨ (∃ u p r, submits request u p
            ∧ first_by_username u (db c) = Some r
            ∧ register request c
              = (Ret (Redirect "/register"),
                 mkctx (db c) (session c)
                   (flashes c ++ ["Username already taken. Please choose another."])
                   (entropy c) (cursor c)))
  ∨ (∃ u p, submits request u p
          ∧ first_by_username u (db c) = None
          ∧ register request c
            = (Ret (Redirect "/"),
               mkctx (db c ++ [User.mk (next_id (db c)) u
                                 (stored_hash p (next_draws c))])
                 (session c)
                 (flashes c ++ ["Registration successful! You can now log in."])
                 (entropy c) (cursor c + 16))).
Proof.
  destruct (decide (Request.method request = "POST")) as [Hm|Hm];
    [|by left; unfold register; rewrite decide_False by done].
  right.
  destruct (Request.form request !! "username") as [u|] eqn:Hu.
  2:{ left. split; [done|]. exists "username". split_and!; [by left|done|].
      unfold register. rewrite decide_True by done. run_M. by rewrite Hu. }
  destruct (Request.form request !! "password") as [p|] eqn:Hp.
  2:{ left. split; [done|]. exists "password". split_and!; [by right|done|].
      unfold register. rewrite decide_True by done. run_M. by rewrite Hu, Hp. }
  right. destruct (first_by_username u (db c)) as [r|] eqn:Hr.
  - left. exists u, p, r. split_and!; [done..|]. by apply (register_taken _ u p _ r).
  - right. exists u, p. split_and!; [done..|]. by apply register_fresh.
Qed.

(** [login], case by case, with the exception named. *)
Lemma login_cases_exn request c :
  (∃ key, (key = "username" ∨ key = "password")
        ∧ Request.form request !! key = None
        ∧ login request c = (Raise (BadRequestKeyError key), c))
  ∨ (∃ u p r e,
       Request.form request !! "username" = Some u
       ∧ Request.form request !! "password" = Some p
       ∧ first_by_username u (db c) = Some r
       ∧ security.check_password_hash (User.password r) p = Raise e
       ∧ login request c = (Raise e, c))
  ∨ (∃ u p,
       Request.form request !! "username" = Some u
       ∧ Request.form request !! "password" = Some p
       ∧ (first_by_username u (db c) = None
          ∨ ∃ r, first_by_username u (db c) = Some r
               ∧ security.check_password_hash (User.password r) p = Ret false)
       ∧ login request c
         = (Ret (Redirect "/"),
            mkctx (db c) (session c)
              (flashes c ++ ["Invalid username or password."])
              (entropy c) (cursor c)))
  ∨ (∃ u p r,
       Request.form request !! "username" = Some u
       ∧ Request.form request !! "password" = Some p
       ∧ first_by_username u (db c) = Some r
       ∧ security.check_password_hash (User.password r) p = Ret true
       ∧ login request c
         = (Ret (Redirect "/dashboard"),
            mkctx (db c) (<["user" := User.username r]> (session c)) (flashes c)
                  (entropy c) (cursor c))).
Proof.
  unfold login. run_M.
  destruct (Request.form request !! "username") as [u|] eqn:Hu.
  2:{ left. exists "username". split_and!; [by left|done..]. }
  destruct (Request.form request !! "password") as [p|] eqn:Hp.
  2:{ left. exists "password". split_and!; [by right|done..]. }
  destruct (first_by_username u (db c)) as [r|] eqn:Hr.
  2:{ right; right; left. exists u, p. split_and!; [done|done|by left|done]. }
  destruct (security.check_password_hash (User.password r) p) as [[]|e] eqn:Hok.
  - right; right; right. by exists u, p, r.
  - right; right; left. exists u, p. split_and!; [done|done| |done].
    right. by exists r.
  - right; left. by exists u, p, r, e.
Qed.

(** What any view can do to the table and to the session. *)
Lemma run_db v c :
  db (run v c).2 = db c
  ∨ ∃ u p,
      db (run v c).2
      = db c ++ [User.mk (next_id (db c)) u (stored_hash p (next_draws c))]
      ∧ first_by_username u (db c) = None.
Proof.
  destruct v as [|request|request| |]; cbn [run]; try by left.
  - apply register_db.
  - left. by destruct (login_cases request c)
      as [[e ->]|[->|(u & p & r & _ & _ & _ & _ & ->)]].
  - left. by rewrite dashboard_eq.
Qed.

Lemma register_session request c :
  session (register request c).2 = session c.
Proof.
  by destruct (register_cases request c)
    as [[_ ->]|[(_ & k & _ & _ & ->)|[(u & p & r & _ & _ & ->)|(u & p & _ & _ & ->)]]].
Qed.

Lemma first_by_username_prefix u rows rows' r :
  rows `prefix_of` rows' →
  first_by_username u rows = Some r →
  first_by_username u rows' = Some r.
Proof.
  intros [ext ->]. unfold first_by_username. rewrite filter_app.
  by destruct (filter _ rows).
Qed.

Lemma run_prefix v c : db c `prefix_of` db (run v c).2.
Proof.
  destruct (run_db v c) as [->|(u & p & -> & _)]; [done|]. by apply prefix_app_r.
Qed.

Lemma later_prefix rows rows' : later rows rows' → rows `prefix_of` rows'.
Proof.
  induction 1 as [|c v _ IH]; [done|]. etrans; [done|]. apply run_prefix.
Qed.

End view_facts.

(** ** Histories: what stays true while requests are served *)

Section history_facts.
Context `{Hashlib}.

(** Rows are only ever appended: a table that comes later starts with the
    earlier table, row for row, so a username that was found keeps its row,
    and with it its id and its stored hash (no view deletes a user or
    changes a password). *)
Theorem table_only_grows rows rows' :
  later rows rows' →
  rows `prefix_of` rows'
  ∧ ∀ u r, first_by_username u rows = Some r → first_by_username u rows' = Some r.
Proof.
  intros Hlater%later_prefix. split; [done|].
  intros u r. by apply first_by_username_prefix.
Qed.

(** A registration lasts: after [register] stored a free username with
    password [p0], and after any further requests of any clients, [login]
    with that username and a password [p] is accepted when the PBKDF2
    digest of [p] under the salt drawn at registration equals that of
    [p0] (so always for [p0] itself), and is refused as invalid
    credentials when the digests differ. *)
Theorem registration_durable request1 request2 u p0 p c c' :
  submits request1 u p0 →
  first_by_username u (db c) = None →
  later (db (register request1 c).2) (db c') →
  submits request2 u p →
  (pbkdf2_hmac "sha256" p (next_salt c) DEFAULT_PBKDF2_ITERATIONS
   = pbkdf2_hmac "sha256" p0 (next_salt c) DEFAULT_PBKDF2_ITERATIONS →
   Authenticated (login request2 c')
   ∧ current_user (login request2 c').2 = Some u)
  ∧ (pbkdf2_hmac "sha256" p (next_salt c) DEFAULT_PBKDF2_ITERATIONS
     ≠ pbkdf2_hmac "sha256" p0 (next_salt c) DEFAULT_PBKDF2_ITERATIONS →
     InvalidCredentials c' (login request2 c')
     ∧ current_user (login request2 c').2 = current_user c').
Proof.
  intros Hs1 Hfree Hlater Hs2.
  rewrite (register_fresh _ u p0) in Hlater by done. cbn [snd db] in Hlater.
  set (row := User.mk _ _ _) in Hlater.
  assert (first_by_username u (db c') = Some row) as Hrow.
  { eapply first_by_username_prefix; [by apply later_prefix|].
    rewrite first_by_username_app, Hfree. by rewrite decide_True. }
  pose proof (check_stored p0 (next_draws c) p) as Hcheck.
  fold (next_salt c) in Hcheck.
  split; intros Hdigest.
  - rewrite bool_decide_eq_true_2 in Hcheck by done.
    rewrite (login_accepted _ u p _ row Hs2 Hrow Hcheck).
    split; [done|]. apply lookup_insert_eq.
  - rewrite bool_decide_eq_false_2 in Hcheck by done.
    by rewrite (login_rejected _ u p _ row Hs2 Hrow Hcheck).
Qed.

(** Nobody is logged in as a stranger: along the life of a client's
    session that started with nobody logged in, whatever requests the
    client and other clients make, the username bound to the session is
    the username of a row of the table. *)
Theorem session_user_registered c0 c :
  current_user c0 = None →
  rtc client_step c0 c →
  ∀ u, current_user c = Some u → u ∈ User.username <$> db c.
Proof.
  intros Hanon Hsteps. revert c Hsteps.
  apply (rtc_ind_r (λ c, ∀ u, current_user c = Some u → u ∈ User.username <$> db c)).
  { intros u. by rewrite Hanon. }
  intros c1 c2 Hsteps Hstep IH.
  assert (∀ rows rows' u, rows `prefix_of` rows' →
            u ∈ User.username <$> rows → u ∈ User.username <$> rows') as Hmono.
  { intros rows rows' u [ext ->]. rewrite fmap_app, elem_of_app. tauto. }
  unfold current_user in *.
  destruct Hstep as [c1 v|c1 c' c'' v Hdb' Hdb'' Hsess].
  - destruct v as [|request|request| |]; cbn [run].
    + done.
    + rewrite register_session. intros u Hu.
      eapply Hmono; [apply (run_prefix (Register request))|by apply IH].
    + destruct (login_cases request c1)
        as [[e ->]|[->|(u0 & p & r & _ & _ & Hr & _ & ->)]]; [done..|].
      cbn [snd session db]. intros u. rewrite lookup_insert_eq. intros [= <-].
      apply first_by_username_Some in Hr as [Hr _].
      by apply list_elem_of_fmap_2.
    + by rewrite dashboard_eq.
    + rewrite logout_eq. cbn [snd session]. intros u.
      by rewrite lookup_delete_eq.
  - rewrite Hsess, Hdb''. intros u Hu.
    eapply Hmono; [apply run_prefix|]. rewrite Hdb'. by apply IH.
Qed.

End history_facts.

(** ** Errors, frames and the shape of what is stored *)

Section coverage_facts.
Context `{Hashlib}.

Lemma reachable_drawn rows :
  reachable rows →
  Forall (λ r, ∃ p c, User.password r = stored_hash p (next_draws c)) rows.
Proof.
  induction 1 as [|c v _ IH]; [constructor|].
  destruct (run_db v c) as [->|(u & p & -> & _)]; [done|].
  apply Forall_app. split; [done|]. apply Forall_singleton. by exists p, c.
Qed.

Lemma check_reachable_returns rows u r p :
  reachable rows →
  first_by_username u rows = Some r →
  ∃ b, security.check_password_hash (User.password r) p = Ret b.
Proof.
  intros Hreach [Hr _]%first_by_username_Some.
  pose proof (reachable_generated _ Hreach) as Hgen.
  rewrite Forall_forall in Hgen. destruct (Hgen r Hr) as (p0 & rs & ->).
  rewrite check_stored. by eexists.
Qed.

(** The only exception a view raises on a reachable table is the
    [BadRequestKeyError] of a missing form field: the hash check parses
    every stored hash, the INSERT never meets a taken username, and the
    salt length is positive, so nothing else is raised.  A view raises
    exactly when it is [login], or [register] on a POST, and the form lacks
    the username or the password; a view that raises has changed nothing. *)
Theorem views_raise_only_missing_field v c :
  reachable (db c) →
  (∀ e, (run v c).1 = Raise e →
        (e = BadRequestKeyError "username" ∨ e = BadRequestKeyError "password")
        ∧ (run v c).2 = c)
  ∧ ((∃ e, (run v c).1 = Raise e)
     ↔ ∃ request,
         (v = Register request ∧ Request.method request = "POST"
          ∨ v = Login request)
         ∧ (Request.form request !! "username" = None
            ∨ Request.form request !! "password" = None)).
Proof.
  intros Hreach.
  assert (∀ key request, key = "username" ∨ key = "password" →
            Request.form request !! key = None →
            Request.form request !! "username" = None
            ∨ Request.form request !! "password" = None) as Hkey
    by (intros key request [->| ->]; tauto).
  destruct v as [|request|request| |]; cbn [run].
  - split; [done|]. split; [by intros [? ?]|]. by intros (? & [[? _]|?] & _).
  - destruct (register_cases request c)
      as [[Hm ->]|[(Hm & k & Hk & Hnone & ->)
         |[(u & p & r & (Hm & Hu & Hp) & _ & ->)|(u & p & (Hm & Hu & Hp) & _ & ->)]]];
      cbn [fst snd].
    + split; [done|]. split; [by intros [? ?]|].
      intros (? & [[[= <-] ?]|?] & _); done.
    + split.
      * intros e [= <-]. split; [|done]. destruct Hk as [->| ->]; tauto.
      * split; [|by eexists]. intros _. exists request.
        split; [by left|by eapply Hkey].
    + split; [done|]. split; [by intros [? ?]|].
      intros (? & [[[= <-] _]|?] & [?|?]); congruence.
    + split; [done|]. split; [by intros [? ?]|].
      intros (? & [[[= <-] _]|?] & [?|?]); congruence.
  - destruct (login_cases_exn request c)
      as [(k & Hk & Hnone & ->)|[(u & p & r & e & Hu & Hp & Hr & Hraise & ->)
         |[(u & p & Hu & Hp & _ & ->)|(u & p & r & Hu & Hp & _ & _ & ->)]]];
      cbn [fst snd].
    + split.
      * intros e [= <-]. split; [|done]. destruct Hk as [->| ->]; tauto.
      * split; [|by eexists]. intros _. exists request.
        split; [by right|by eapply Hkey].
    + destruct (check_reachable_returns _ u r p Hreach Hr) as [b Hb]. congruence.
    + split; [done|]. split; [by intros [? ?]|].
      intros (? & [[? _]|[= <-]] & [?|?]); congruence.
    + split; [done|]. split; [by intros [? ?]|].
      intros (? & [[? _]|[= <-]] & [?|?]); congruence.
  - rewrite dashboard_eq. cbn [fst snd].
    split; [done|]. split; [by intros [? ?]|]. by intros (? & [[? _]|?] & _).
  - split; [done|]. split; [by intros [? ?]|]. by intros (? & [[? _]|?] & _).
Qed.

(** [register] tells whether a username is taken: for a complete form the
    answer is the redirect back to the registration form exactly when the
    username is in the table, and the redirect to the login page exactly
    when it is not. *)
Theorem register_tells_taken request u p c :
  submits request u p →
  ((register request c).1 = Ret (Redirect "/register")
   ↔ u ∈ User.username <$> db c)
  ∧ ((register request c).1 = Ret (Redirect "/")
     ↔ u ∉ User.username <$> db c).
Proof.
  intros Hsub.
  destruct (first_by_username u (db c)) as [r|] eqn:Hr.
  - assert (u ∈ User.username <$> db c) as Hin.
    { apply first_by_username_Some in Hr as [Hr <-]. by apply list_elem_of_fmap_2. }
    rewrite (register_taken _ u p _ r) by done. cbn [fst].
    split; split; done.
  - pose proof Hr as Hnot%first_by_username_None.
    rewrite (register_fresh _ u p) by done. cbn [fst].
    split; split; done.
Qed.

(** [register] adds a row exactly when the request is a POST that carries
    both fields and the username is free; a GET, a form with a field
    missing, or a taken username leave the table as it was. *)
Theorem register_writes_iff request c :
  db (register request c).2 ≠ db c
  ↔ ∃ u p, submits request u p ∧ first_by_username u (db c) = None.
Proof.
  split.
  - destruct (register_cases request c)
      as [[_ ->]|[(_ & k & _ & _ & ->)
         |[(u & p & r & _ & _ & ->)|(u & p & Hsub & Hfree & _)]]]; [done..|].
    intros _. by exists u, p.
  - intros (u & p & Hsub & Hfree). rewrite (register_fresh _ u p) by done.
    cbn [snd db]. intros Heq. apply (f_equal length) in Heq.
    rewrite length_app in Heq. cbn [length] in Heq. lia.
Qed.

Lemma foldr_max_seq a n : foldr Nat.max 0 (seq a (S n)) = a + n.
Proof.
  revert a. induction n as [|n IH]; intros a.
  - cbn. lia.
  - change (seq a (S (S n))) with (a :: seq (S a) (S n)).
    cbn [foldr]. rewrite IH. lia.
Qed.

Lemma next_id_sequential rows :
  User.id <$> rows = seq 1 (length rows) → next_id rows = S (length rows).
Proof.
  intros Hids. unfold next_id. rewrite Hids.
  destruct (length rows) as [|n]; [done|]. by rewrite foldr_max_seq.
Qed.

(** The primary key: in a reachable table the rows carry the ids 1, 2, 3,
    ... in insertion order, so no two rows share an id. *)
Theorem ids_sequential rows :
  reachable rows →
  User.id <$> rows = seq 1 (length rows) ∧ NoDup (User.id <$> rows).
Proof.
  intros Hreach.
  assert (User.id <$> rows = seq 1 (length rows)) as Hids.
  { induction Hreach as [|c v _ IH]; [done|].
    destruct (run_db v c) as [->|(u & p & -> & _)]; [done|].
    rewrite fmap_app, length_app, seq_app, IH. cbn [fmap list_fmap User.id].
    by rewrite (next_id_sequential _ IH). }
  split; [done|]. rewrite Hids. apply NoDup_seq.
Qed.

Lemma get_elem_of i s a :
  String.get i s = Some a → a ∈ list_ascii_of_string s.
Proof.
  revert i. induction s as [|x s IH]; intros i; [done|].
  destruct i as [|i]; cbn [String.get list_ascii_of_string].
  - intros [= ->]. by left.
  - intros Hget. right. by eapply IH.
Qed.

Lemma get_is_Some i s : i < String.length s → is_Some (String.get i s).
Proof.
  revert i. induction s as [|x s IH]; intros i; cbn [String.length]; [lia|].
  destruct i as [|i]; cbn [String.get]; [by eexists|]. intros ?. apply IH. lia.
Qed.

Lemma choice_in_SALT_CHARS r :
  security.choice r ∈ list_ascii_of_string security.SALT_CHARS.
Proof.
  unfold security.choice.
  destruct (get_is_Some (r `mod` String.length security.SALT_CHARS)
              security.SALT_CHARS) as [a Ha].
  { apply Nat.mod_upper_bound. by vm_compute. }
  rewrite Ha. by eapply get_elem_of.
Qed.

(** What [register] stores, line 75: every stored password of a reachable
    table reads [pbkdf2:sha256:<iterations>$<salt>$<digest>], splits at
    its first two ["$"] into exactly these three fields, and its salt has
    sixteen characters, each a letter or a digit of [SALT_CHARS]. *)
Theorem stored_hash_format rows :
  reachable rows →
  Forall (λ r, ∃ salt digest,
    User.password r
    = "pbkdf2:sha256:" +:+ Str.of_N DEFAULT_PBKDF2_ITERATIONS +:+ "$" +:+ salt
        +:+ "$" +:+ digest
    ∧ Str.split3 "$" (User.password r)
      = Some ("pbkdf2:sha256:" +:+ Str.of_N DEFAULT_PBKDF2_ITERATIONS, salt, digest)
    ∧ String.length salt = 16
    ∧ Forall (λ a, a ∈ list_ascii_of_string security.SALT_CHARS)
        (list_ascii_of_string salt)) rows.
Proof.
  intros Hreach. eapply Forall_impl; [by apply reachable_drawn|].
  intros r (p & c & ->). unfold stored_hash. cbv zeta.
  fold (next_salt c). eexists (next_salt c), _. split_and!.
  - done.
  - change ("pbkdf2:sha256:" +:+ Str.of_N DEFAULT_PBKDF2_ITERATIONS +:+ "$"
              +:+ next_salt c +:+ "$" +:+ ?h)
      with (("pbkdf2:sha256:" +:+ Str.of_N DEFAULT_PBKDF2_ITERATIONS)
              +:+ String "$" (next_salt c +:+ String "$" h)).
    apply StrFacts.split3_app; [|apply salt_no_dollar].
    rewrite StrFacts.contains_app. by rewrite StrFacts.contains_of_N.
  - unfold next_salt, next_draws.
    by rewrite StrFacts.length_string_of_list_ascii, !length_fmap, length_seq.
  - unfold next_salt. rewrite list_ascii_of_string_of_list_ascii.
    apply Forall_fmap, Forall_forall. intros x _. apply choice_in_SALT_CHARS.
Qed.

(** The protected page opens by a login only: whoever was logged in,
    after [logout] the dashboard redirects to the login page; and from a
    session with nobody logged in, the dashboard after [register] still
    redirects (registering does not log in), while the dashboard after
    [login] renders exactly when that login was accepted. *)
Theorem protected_page_needs_login request c :
  (dashboard (logout c).2).1 = Ret (Redirect "/")
  ∧ (current_user c = None →
     (dashboard (register request c).2).1 = Ret (Redirect "/")
     ∧ ((∃ kwargs, (dashboard (login request c).2).1
                   = Ret (Page 200 "dashboard.html" kwargs))
        ↔ Authenticated (login request c))).
Proof.
  rewrite !dashboard_eq. cbn [fst]. unfold current_user.
  split; [by rewrite logout_eq; cbn [snd session]; rewrite lookup_delete_eq|].
  intros Hanon. split; [by rewrite register_session, Hanon|].
  unfold Authenticated.
  destruct (login_cases request c)
    as [[e ->]|[->|(u & p & r & _ & _ & _ & _ & ->)]]; cbn [fst snd session].
  - rewrite Hanon. split; [by intros [? ?]|done].
  - rewrite Hanon. split; [by intros [? ?]|done].
  - rewrite lookup_insert_eq. split; [done|]. intros _. by eexists.
Qed.

End coverage_facts.

(** ** These theorems at work on the small installation *)

Section coverage_examples.
#[local] Existing Instance example_hashlib.

Lemma table_only_grows_example :
  let rows := db (register (POST "alice" "secret1") example_ctx).2 in
  let c := mkctx rows ∅ [] (λ i, i) 0 in
  let rows' := db (run (Register (POST "bob" "hunter2")) c).2 in
  later rows rows'
  ∧ rows `prefix_of` rows'
  ∧ ∀ u r, first_by_username u rows = Some r → first_by_username u rows' = Some r.
Proof.
  intros rows c rows'.
  assert (later rows rows') as H1
    by apply (later_step rows c (Register (POST "bob" "hunter2"))), later_refl.
  exact (conj H1 (table_only_grows rows rows' H1)).
Defined.

Lemma registration_durable_example :
  let request1 := POST "alice" "secret1" in
  let c := example_ctx in
  let c' := (run (Register (POST "bob" "hunter2")) (register request1 c).2).2 in
  let request2 := POST "alice" "secret1" in
  submits request1 "alice" "secret1"
  ∧ first_by_username "alice" (db c) = None
  ∧ later (db (register request1 c).2) (db c')
  ∧ submits request2 "alice" "secret1"
  ∧ Authenticated (login request2 c')
  ∧ current_user (login request2 c').2 = Some "alice".
Proof.
  intros request1 c c' request2.
  assert (submits request1 "alice" "secret1") as H1
    by (repeat split; vm_compute; reflexivity).
  assert (first_by_username "alice" (db c) = None) as H2 by reflexivity.
  assert (later (db (register request1 c).2) (db c')) as H3
    by apply (later_step _ (register request1 c).2
                (Register (POST "bob" "hunter2"))), later_refl.
  exact (conj H1 (conj H2 (conj H3 (conj H1
           (proj1 (registration_durable request1 request2 "alice" "secret1"
                     "secret1" c c' H1 H2 H3 H1) eq_refl))))).
Defined.

Lemma session_user_registered_example :
  let request := POST "alice" "secret1" in
  let c0 := example_ctx in
  let c := (run (Login request) (run (Register request) c0).2).2 in
  current_user c0 = None
  ∧ rtc client_step c0 c
  ∧ current_user c = Some "alice"
  ∧ "alice" ∈ User.username <$> db c.
Proof.
  intros request c0 c.
  assert (current_user c0 = None) as H1 by reflexivity.
  assert (rtc client_step c0 c) as H2.
  { apply (rtc_l _ _ (run (Register request) c0).2).
    - apply (own_request c0 (Register request)).
    - apply rtc_once, (own_request _ (Login request)). }
  assert (current_user c = Some "alice") as H3 by (vm_compute; reflexivity).
  exact (conj H1 (conj H2 (conj H3
           (session_user_registered c0 c H1 H2 "alice" H3)))).
Defined.

Lemma views_raise_only_missing_field_example :
  let v := Login (Request.mk "POST" {[ "username" := "alice" ]}) in
  let c := example_ctx in
  reachable (db c)
  ∧ (run v c).1 = Raise (BadRequestKeyError "password")
  ∧ (∀ e, (run v c).1 = Raise e →
          (e = BadRequestKeyError "username" ∨ e = BadRequestKeyError "password")
          ∧ (run v c).2 = c)
  ∧ ((∃ e, (run v c).1 = Raise e)
     ↔ ∃ request,
         (v = Register request ∧ Request.method request = "POST"
          ∨ v = Login request)
         ∧ (Request.form request !! "username" = None
            ∨ Request.form request !! "password" = None)).
Proof.
  intros v c.
  assert (reachable (db c)) as H1 by apply reachable_init.
  assert ((run v c).1 = Raise (BadRequestKeyError "password")) as H2
    by (vm_compute; reflexivity).
  exact (conj H1 (conj H2 (views_raise_only_missing_field v c H1))).
Defined.

Lemma register_tells_taken_example :
  let c := (register (POST "alice" "secret1") example_ctx).2 in
  let request := POST "alice" "other" in
  submits request "alice" "other"
  ∧ ((register request c).1 = Ret (Redirect "/register")
     ↔ "alice" ∈ User.username <$> db c)
  ∧ ((register request c).1 = Ret (Redirect "/")
     ↔ "alice" ∉ User.username <$> db c).
Proof.
  intros c request.
  assert (submits request "alice" "other") as H1
    by (repeat split; vm_compute; reflexivity).
  exact (conj H1 (register_tells_taken request "alice" "other" c H1)).
Defined.

Lemma register_writes_iff_example :
  let c := example_ctx in
  let request := POST "alice" "secret1" in
  (∃ u p, submits request u p ∧ first_by_username u (db c) = None)
  ∧ db (register request c).2 ≠ db c.
Proof.
  intros c request.
  assert (∃ u p, submits request u p ∧ first_by_username u (db c) = None) as H1.
  { exists "alice", "secret1". repeat split; vm_compute; reflexivity. }
  exact (conj H1 (proj2 (register_writes_iff request c) H1)).
Defined.

Lemma ids_sequential_example :
  let c := example_ctx in
  let c1 := (run (Register (POST "alice" "secret1")) c).2 in
  let rows := db (run (Register (POST "bob" "hunter2")) c1).2 in
  reachable rows
  ∧ User.id <$> rows = seq 1 (length rows)
  ∧ NoDup (User.id <$> rows).
Proof.
  intros c c1 rows.
  assert (reachable rows) as H1
    by apply (reachable_step c1), (reachable_step c), reachable_init.
  exact (conj H1 (ids_sequential rows H1)).
Defined.

Lemma stored_hash_format_example :
  let rows := db (run (Register (POST "alice" "secret1")) example_ctx).2 in
  reachable rows
  ∧ Forall (λ r, ∃ salt digest,
      User.password r
      = "pbkdf2:sha256:" +:+ Str.of_N DEFAULT_PBKDF2_ITERATIONS +:+ "$" +:+ salt
          +:+ "$" +:+ digest
      ∧ Str.split3 "$" (User.password r)
        = Some ("pbkdf2:sha256:" +:+ Str.of_N DEFAULT_PBKDF2_ITERATIONS, salt, digest)
      ∧ String.length salt = 16
      ∧ Forall (λ a, a ∈ list_ascii_of_string security.SALT_CHARS)
          (list_ascii_of_string salt)) rows.
Proof.
  intros rows.
  assert (reachable rows) as H1
    by apply (reachable_step example_ctx), reachable_init.
  exact (conj H1 (stored_hash_format rows H1)).
Defined.

Lemma protected_page_needs_login_example :
  let c := example_ctx in
  let request := POST "alice" "secret1" in
  current_user c = None
  ∧ (dashboard (logout c).2).1 = Ret (Redirect "/")
  ∧ (dashboard (register request c).2).1 = Ret (Redirect "/")
  ∧ ((∃ kwargs, (dashboard (login request c).2).1
                = Ret (Page 200 "dashboard.html" kwargs))
     ↔ Authenticated (login request c)).
Proof.
  intros c request.
  assert (current_user c = None) as H1 by reflexivity.
  destruct (protected_page_needs_login request c) as [Hout Hin].
  exact (conj H1 (conj Hout (Hin H1))).
Defined.

End coverage_examples.
